(** * test-files/test-file.py: greeting, calculator, product and fetch

    A shallow embedding of the Python module [test-file.py].  Python
    integers are unbounded, so they are [Z]; strings are [string]; objects
    live in a heap indexed by references, each object being its attribute
    dictionary; statements that touch the heap, the standard output or that
    may raise run in a state-and-exception monad. *)

From Stdlib Require Import ZArith String List Lia DecimalString.
From stdpp Require Import base option gmap strings.

Local Open Scope Z_scope.

(** ** Outcomes and the state-and-exception monad *)

(** A Python call either returns a value or raises.  Mutations made before
    a [raise] stay, so the state is returned on both paths. *)
Inductive outcome (E A : Type) : Type :=
| Returns (v : A)
| Raises (e : E).
Arguments Returns {E A} v.
Arguments Raises {E A} e.

Definition M (E S A : Type) : Type := S -> outcome E A * S.

Definition ret {E S A} (v : A) : M E S A := fun st => (Returns v, st).

Definition raise {E S A} (e : E) : M E S A := fun st => (Raises e, st).

Definition bind {E S A B} (c : M E S A) (k : A -> M E S B) : M E S B :=
  fun st =>
    match c st with
    | (Returns v, st') => k v st'
    | (Raises e, st') => (Raises e, st')
    end.

Notation "'let*' x ':=' c 'in' k" := (bind c (fun x => k))
  (at level 10, x pattern, c at level 100, k at level 200).

Definition result_of {E S A} (r : outcome E A * S) : outcome E A := fst r.
Definition state_of {E S A} (r : outcome E A * S) : S := snd r.

(** ** The Python state: heap, standard output, call log *)

(** The four module-level symbols of the file. *)
Inductive symbol : Type := Sgreet | SCalculator | Smultiply | Sfetch_data.

Global Instance symbol_eq_dec : EqDecision symbol.
Proof. solve_decision. Defined.

(** The one built-in exception the synchronous code could meet: reading an
    attribute an object does not have. *)
Inductive exn : Type := AttributeError (attr : string).

Definition loc : Type := positive.

Record pystate : Type := mkState {
  heap : gmap loc (gmap string Z);
  stdout : string;
  calls : list symbol
}.

Definition empty_state : pystate := mkState ∅ "" [].

Definition with_heap (h : gmap loc (gmap string Z)) (st : pystate) : pystate :=
  mkState h (stdout st) (calls st).

(** [object.__new__]: a fresh object with no attribute. *)
Definition new_object : M exn pystate loc := fun st =>
  let l := fresh (dom (heap st)) in
  (Returns l, with_heap (<[l := ∅]> (heap st)) st).

(** [o.name = v]: creates the attribute or overwrites it. *)
Definition setattr (o : loc) (name : string) (v : Z) : M exn pystate unit :=
  fun st =>
    let attrs := default ∅ (heap st !! o) in
    (Returns tt, with_heap (<[o := <[name := v]> attrs]> (heap st)) st).

(** [o.name]: raises [AttributeError] when the attribute is missing. *)
Definition getattr (o : loc) (name : string) : M exn pystate Z := fun st =>
  match heap st !! o ≫= (fun attrs => attrs !! name) with
  | Some v => (Returns v, st)
  | None => (Raises (AttributeError name), st)
  end.

(** [str(z)] on an integer: decimal digits, a leading minus sign when
    negative. *)
Definition str (z : Z) : string := NilZero.string_of_int (Z.to_int z).

Definition newline : string := String (Ascii.ascii_of_nat 10) EmptyString.

(** [print(s)]: the text and a newline, appended to the standard output. *)
Definition print (s : string) : M exn pystate unit := fun st =>
  (Returns tt, mkState (heap st) (stdout st +:+ s +:+ newline) (calls st)).

(** A call expression naming the module-level symbol [f]: the call is
    logged, then the callee runs. *)
Definition invoke {A} (f : symbol) (body : M exn pystate A) : M exn pystate A :=
  fun st => body (mkState (heap st) (stdout st) (calls st ++ [f])).

(** ** The module's definitions *)

(** [def greet(name)]: [message = f"Hello, {name}!"; return message]. *)
Definition greet (name : string) : string :=
  let message := "Hello, " +:+ name +:+ "!" in
  message.

Module Calculator.

(** [def __init__(self): self.result = 0] *)
Definition __init__ (self : loc) : M exn pystate unit :=
  setattr self "result" 0.

(** The call [Calculator()]: allocate, then run [__init__]. *)
Definition new : M exn pystate loc :=
  let* self := new_object in
  let* _ := __init__ self in
  ret self.

(** [def add(self, a, b): self.result = a + b; return self] *)
Definition add (self : loc) (a b : Z) : M exn pystate loc :=
  let* _ := setattr self "result" (a + b) in
  ret self.

(** [def subtract(self, a, b): self.result = a - b; return self] *)
Definition subtract (self : loc) (a b : Z) : M exn pystate loc :=
  let* _ := setattr self "result" (a - b) in
  ret self.

(** The expression [self.result]. *)
Definition result (self : loc) : M exn pystate Z := getattr self "result".

End Calculator.

(** [multiply = lambda a, b: a * b] *)
Definition multiply (a b : Z) : Z := a * b.

(** The body under [if __name__ == "__main__":]. *)
Definition main : M exn pystate unit :=
  let* calc := invoke SCalculator Calculator.new in
  let* _ := (let* s := invoke Sgreet (ret (greet "World")) in print s) in
  let* c := invoke SCalculator (Calculator.add calc 5 3) in
  let* r := Calculator.result c in
  print (str r).

(** Running the file as module [name]: the definitions bind names only, the
    guarded body runs when the module is the script. *)
Definition run_module (name : string) : M exn pystate unit :=
  if decide (name = "__main__") then main else ret tt.

(** ** Sequences of calculator operations *)

(** One mutating call on a holder, as data: which method, which arguments. *)
Inductive calc_op : Type :=
| OpAdd (a b : Z)
| OpSubtract (a b : Z).

Definition apply_op (self : loc) (o : calc_op) : M exn pystate loc :=
  match o with
  | OpAdd a b => Calculator.add self a b
  | OpSubtract a b => Calculator.subtract self a b
  end.

(** The value the operation computes from its own arguments. *)
Definition op_value (o : calc_op) : Z :=
  match o with
  | OpAdd a b => a + b
  | OpSubtract a b => a - b
  end.

(** The statements [self.op1(..); self.op2(..); ...] in order. *)
Fixpoint run_ops (self : loc) (ops : list calc_op) : M exn pystate unit :=
  match ops with
  | [] => ret tt
  | o :: rest => let* _ := apply_op self o in run_ops self rest
  end.

(** ** The operations as one call interface *)

Inductive call : Type :=
| Call_greet (name : string)
| Call_add (self : loc) (a b : Z)
| Call_subtract (self : loc) (a b : Z)
| Call_multiply (a b : Z).

Inductive value : Type :=
| VStr (s : string)
| VInt (z : Z)
| VRef (l : loc).

Definition run_call (c : call) : M exn pystate value :=
  match c with
  | Call_greet name => ret (VStr (greet name))
  | Call_add self a b => let* r := Calculator.add self a b in ret (VRef r)
  | Call_subtract self a b => let* r := Calculator.subtract self a b in ret (VRef r)
  | Call_multiply a b => ret (VInt (multiply a b))
  end.

(** A [w]-bit unsigned register holding [z]: what fixed-width arithmetic
    would keep of a result. *)
Definition wrap (w : nat) (z : Z) : Z := z mod 2 ^ Z.of_nat w.

(** ** The network fetch *)

(** What a call of [fetch_data] can hand back: the values a JSON text parses
    to, [None] among them.  A float is kept as the text of its literal; no
    arithmetic is done on it here. *)
#[local] Unset Elimination Schemes.
Inductive pyvalue : Type :=
| PyNone
| PyBool (b : bool)
| PyInt (z : Z)
| PyFloat (literal : string)
| PyStr (s : string)
| PyList (items : list pyvalue)
| PyDict (items : list (string * pyvalue)).
#[local] Set Elimination Schemes.


(** The HTTP client [fetch_data] imports.  Its code is not part of this
    file, so it is an interface: [W] is whatever the client and the network
    keep as state, [E] the exceptions it raises, and every operation may
    change the one and raise the other.  An awaited operation that is
    cancelled raises at its await point, so cancellation is one more way for
    an operation to raise. *)
Class Aiohttp (E W : Type) : Type := {
  session_t : Type;
  request_t : Type;
  response_t : Type;
  (** [import aiohttp] *)
  import_aiohttp : M E W unit;
  (** [aiohttp.ClientSession()] *)
  ClientSession : M E W session_t;
  (** [await session.__aenter__()] *)
  session_aenter : session_t -> M E W session_t;
  (** [await session.__aexit__(exc)]; a truthy return swallows [exc] *)
  session_aexit : session_t -> option E -> M E W bool;
  (** [session.get(url)] *)
  session_get : session_t -> string -> M E W request_t;
  (** [await request.__aenter__()]: the response handle *)
  request_aenter : request_t -> M E W response_t;
  (** [await request.__aexit__(exc)] *)
  request_aexit : request_t -> option E -> M E W bool;
  (** [await response.json()]: whatever the body parses to *)
  response_json : response_t -> M E W pyvalue
}.

(** The two scoped resources and the moments they are taken and given
    back. *)
Inductive resource : Type := RSession | RResponse.

Global Instance resource_eq_dec : EqDecision resource.
Proof. solve_decision. Defined.

Inductive event : Type :=
| Acquired (r : resource)
| Released (r : resource).

Global Instance event_eq_dec : EqDecision event.
Proof. solve_decision. Defined.

(** The state [fetch_data] runs in: the client's world, and the record of
    scope entries and exits, which the client cannot touch. *)
Record fstate (W : Type) : Type := mkFState {
  world : W;
  trace : list event
}.
Arguments mkFState {W} world trace.
Arguments world {W} f.
Arguments trace {W} f.

Definition lift {E W A} (c : M E W A) : M E (fstate W) A := fun st =>
  let (r, w') := c (world st) in (r, mkFState w' (trace st)).

Definition emit {E W} (ev : event) : M E (fstate W) unit := fun st =>
  (Returns tt, mkFState (world st) (trace st ++ [ev])).

(** [async with MGR as v: BLOCK].  The manager expression is evaluated and
    entered; a failure of either leaves nothing to exit.  Once entered, the
    exit hook runs however the block ends: with no exception after a normal
    end or a [return], with the exception after a raise, which is then
    re-raised unless the hook returned a truthy value.  A block ends with
    [Some v] after [return v] and with [None] when control falls off its
    end; a swallowed exception continues after the statement, as falling off
    does. *)
Definition async_with {E W Mgr Val A} (r : resource)
    (mgr : M E (fstate W) Mgr)
    (enter : Mgr -> M E W Val) (exit : Mgr -> option E -> M E W bool)
    (block : Val -> M E (fstate W) (option A)) : M E (fstate W) (option A) :=
  let* m := mgr in
  let* v := lift (enter m) in
  let* _ := emit (Acquired r) in
  fun st =>
    match block v st with
    | (Returns ctl, st1) =>
        (let* _ := emit (Released r) in
         let* _ := lift (exit m None) in
         ret ctl) st1
    | (Raises e, st1) =>
        (let* _ := emit (Released r) in
         let* swallow := lift (exit m (Some e)) in
         if (swallow : bool) then ret None else raise e) st1
    end.

(** The body of [fetch_data]: how control leaves it, by [return v] or by
    falling off its end. *)
Definition fetch_data_body {E W} {client : Aiohttp E W} (url : string)
  : M E (fstate W) (option pyvalue) :=
  let* _ := lift import_aiohttp in
  async_with RSession (lift ClientSession) session_aenter session_aexit
    (fun session =>
       async_with RResponse (lift (session_get session url))
         request_aenter request_aexit
         (fun response =>
            let* body := lift (response_json response) in
            ret (Some body))).

(** [async def fetch_data(url)]: the call returns the value of the [return]
    statement, which is the parsed body whatever it is, and [None] when
    control falls off the end of the function. *)
Definition fetch_data {E W} {client : Aiohttp E W} (url : string)
  : M E (fstate W) pyvalue :=
  let* ctl := fetch_data_body url in
  ret (match ctl with Some v => v | None => PyNone end).





(** ** A scripted client *)

(** The operations of the client, as points where a run can fail. *)
Inductive step : Type :=
| StImport | StSession | StSessionEnter | StGet | StRequestEnter | StJson
| StRequestExit | StSessionExit.

(** Failures a client reports. *)
Inductive net_error : Type :=
| ModuleNotFoundError
| ClientConnectorError
| ContentTypeError
| CancelledError.

(** One operation of the scripted client: note the step in the world, then
    raise what the script says for it, or return [v]. *)
Definition scripted_op {A} (script : step -> option net_error) (s : step) (v : A)
  : M net_error (list step) A := fun w =>
  match script s with
  | Some e => (Raises e, w ++ [s])
  | None => (Returns v, w ++ [s])
  end.

(** A client whose exit hooks answer [swallow]; its world is the list of the
    steps run so far and every response body parses to [body]. *)
Definition scripted_client_with (body : pyvalue)
    (script : step -> option net_error) (swallow : bool)
  : Aiohttp net_error (list step) := {|
  session_t := unit;
  request_t := string;
  response_t := string;
  import_aiohttp := scripted_op script StImport tt;
  ClientSession := scripted_op script StSession tt;
  session_aenter := fun s => scripted_op script StSessionEnter s;
  session_aexit := fun _ _ => scripted_op script StSessionExit swallow;
  session_get := fun _ url => scripted_op script StGet url;
  request_aenter := fun rq => scripted_op script StRequestEnter rq;
  request_aexit := fun _ _ => scripted_op script StRequestExit swallow;
  response_json := fun _ => scripted_op script StJson body
|}.

(** The body [{"status": 200}]. *)
Definition status_200 : pyvalue := PyDict [("status", PyInt 200)].

(** The scripted client answering every request with [{"status": 200}]. *)
Definition scripted_client (script : step -> option net_error) (swallow : bool)
  : Aiohttp net_error (list step) :=
  scripted_client_with status_200 script swallow.

(** ** A monitored client *)





Definition no_failure : step -> option net_error := fun _ => None.

Definition malformed_body : step -> option net_error := fun s =>
  match s with StJson => Some ContentTypeError | _ => None end.

Definition unreachable_host : step -> option net_error := fun s =>
  match s with StRequestEnter => Some ClientConnectorError | _ => None end.

(** The state a scripted run starts in: nothing done, nothing entered. *)
Definition start : fstate (list step) := mkFState [] [].



(** The operations of [fetch_data] before its first scope is entered:
    the import, the session's construction and its [__aenter__]. *)
Definition prelude {E W} {client : Aiohttp E W} : M E W (session_t * session_t) :=
  let* _ := import_aiohttp in
  let* m := ClientSession in
  let* session := session_aenter m in
  ret (m, session).

(** The operations of [fetch_data] up to the point where both scopes are
    entered: the managers and the response handle it then has in hand. *)
Definition open_scopes {E W} {client : Aiohttp E W} (url : string)
  : M E W (session_t * request_t * response_t) :=
  let* ms := prelude in
  let* rq := session_get (snd ms) url in
  let* response := request_aenter rq in
  ret (fst ms, rq, response).

(** The order in which [fetch_data] is written to reach the client. *)
Definition program_order : list step :=
  [StImport; StSession; StSessionEnter; StGet; StRequestEnter; StJson;
   StRequestExit; StSessionExit].

(** A script that fails one step with [e] and otherwise follows [script]. *)
Definition failing (s : step) (e : net_error) (script : step -> option net_error)
  : step -> option net_error := fun s' =>
  match s, s' with
  | StImport, StImport | StSession, StSession
  | StSessionEnter, StSessionEnter | StGet, StGet
  | StRequestEnter, StRequestEnter | StJson, StJson
  | StRequestExit, StRequestExit | StSessionExit, StSessionExit => Some e
  | _, _ => script s'
  end.



Global Instance step_eq_dec : EqDecision step.
Proof. solve_decision. Defined.

(** Whether [l1] can be read off [l2] from left to right, skipping
    elements of [l2]. *)
Fixpoint subsequence (l1 l2 : list step) : bool :=
  match l2 with
  | [] => match l1 with [] => true | _ :: _ => false end
  | y :: l2' =>
      match l1 with
      | [] => true
      | x :: l1' =>
          if decide (x = y) then subsequence l1' l2' else subsequence l1 l2'
      end
  end.

(** * Properties *)

(** ** Heap lemmas *)

Lemma getattr_setattr (o : loc) (name : string) (v : Z) (st : pystate) :
  result_of (getattr o name (state_of (setattr o name v st))) = Returns v.
Proof.
  unfold getattr, setattr, state_of, result_of; simpl.
  rewrite lookup_insert_eq; simpl.
  rewrite lookup_insert_eq. reflexivity.
Qed.

Lemma add_runs (self : loc) (a b : Z) (st : pystate) :
  Calculator.add self a b st = (Returns self, state_of (setattr self "result" (a + b) st)).
Proof. reflexivity. Qed.

Lemma subtract_runs (self : loc) (a b : Z) (st : pystate) :
  Calculator.subtract self a b st = (Returns self, state_of (setattr self "result" (a - b) st)).
Proof. reflexivity. Qed.

Lemma apply_op_runs (self : loc) (o : calc_op) (st : pystate) :
  apply_op self o st = (Returns self, state_of (setattr self "result" (op_value o) st)).
Proof. destruct o; reflexivity. Qed.

Lemma run_ops_returns (self : loc) (ops : list calc_op) (st : pystate) :
  result_of (run_ops self ops st) = Returns tt.
Proof.
  revert st; induction ops as [|o rest IH]; intros st; [reflexivity|].
  simpl. unfold bind. rewrite apply_op_runs. apply IH.
Qed.

Lemma run_ops_snoc (self : loc) (ops : list calc_op) (o : calc_op) (st : pystate) :
  state_of (run_ops self (ops ++ [o]) st)
  = state_of (setattr self "result" (op_value o) (state_of (run_ops self ops st))).
Proof.
  revert st; induction ops as [|o' rest IH]; intros st; simpl.
  - unfold bind. rewrite apply_op_runs. reflexivity.
  - unfold bind. rewrite apply_op_runs. apply IH.
Qed.

Lemma new_runs (st : pystate) :
  Calculator.new st
  = (Returns (fresh (dom (heap st))),
     state_of (setattr (fresh (dom (heap st))) "result" 0
                 (state_of (new_object st)))).
Proof. reflexivity. Qed.

(** ** The calculator holder *)

(** C1: each operation overwrites [result].  On any holder in any state,
    [add(a, b)] followed by [subtract(c, d)] leaves [result] equal to
    [c - d], whatever [a] and [b] were; and after any sequence of operations
    [result] is the value computed by the last one. *)
Theorem result_overwritten_not_accumulated
    (self : loc) (a b c d : Z) (st : pystate) :
  result_of ((let* _ := Calculator.add self a b in
              let* _ := Calculator.subtract self c d in
              Calculator.result self) st) = Returns (c - d)
  /\ forall (ops : list calc_op) (o : calc_op),
       result_of ((let* _ := run_ops self (ops ++ [o]) in
                   Calculator.result self) st)
       = Returns (op_value o).
Proof.
  split.
  - unfold bind. rewrite add_runs, subtract_runs.
    apply getattr_setattr.
  - intros ops o. unfold bind.
    pose proof (run_ops_returns self (ops ++ [o]) st) as Hret.
    pose proof (run_ops_snoc self ops o st) as Hst.
    destruct (run_ops self (ops ++ [o]) st) as [r st'].
    unfold result_of, state_of in Hret, Hst; simpl in Hret, Hst.
    subst r st'. apply getattr_setattr.
Qed.

(** C2: [greet(name)] is exactly ["Hello, "], then [name], then ["!"]; and
    [greet("World")] is ["Hello, World!"]. *)
Theorem greet_concatenation (name : string) :
  greet name = "Hello, " +:+ name +:+ "!"
  /\ greet "World" = "Hello, World!".
Proof. split; reflexivity. Qed.

(** C3: [multiply(a, b)] is the product [a * b]; and [multiply(3, 4)] is
    [12]. *)
Theorem multiply_product (a b : Z) :
  multiply a b = a * b /\ multiply 3 4 = 12.
Proof. split; reflexivity. Qed.

(** C4: [Calculator()] returns a reference to a new object whose [result]
    reads [0] before any operation is invoked. *)
Theorem fresh_holder_zero_initialized (st : pystate) :
  exists (self : loc) (st' : pystate),
    Calculator.new st = (Returns self, st')
    /\ (self ∉ dom (heap st))
    /\ heap st' !! self = Some {[ "result" := 0 ]}
    /\ result_of (Calculator.result self st') = Returns 0.
Proof.
  eexists _, _. split; [apply new_runs|].
  split; [apply is_fresh|]. split.
  - unfold setattr, new_object, state_of; simpl.
    rewrite lookup_insert_eq, lookup_insert_eq. reflexivity.
  - apply getattr_setattr.
Qed.

(** C5: [add] and [subtract] return the reference they were called on, and
    create no other object; a mutation made through the returned reference
    is read back through the original one, and calls chain. *)
Theorem mutators_return_the_holder_itself
    (self : loc) (a b c d : Z) (st : pystate) :
  result_of (Calculator.add self a b st) = Returns self
  /\ result_of (Calculator.subtract self a b st) = Returns self
  /\ dom (heap (state_of (Calculator.add self a b st))) = ({[ self ]} ∪ dom (heap st))
  /\ dom (heap (state_of (Calculator.subtract self a b st))) = ({[ self ]} ∪ dom (heap st))
  /\ result_of ((let* r := Calculator.add self a b in
                 let* _ := Calculator.subtract r c d in
                 Calculator.result self) st) = Returns (c - d)
  /\ result_of ((let* r := Calculator.subtract self a b in
                 let* _ := Calculator.add r c d in
                 Calculator.result self) st) = Returns (c + d)
  /\ result_of ((let* r := Calculator.add self a b in
                 let* r' := Calculator.subtract r c d in
                 Calculator.result r') st) = Returns (c - d).
Proof.
  repeat split.
  - unfold Calculator.add, bind, setattr, state_of; simpl. apply dom_insert_L.
  - unfold Calculator.subtract, bind, setattr, state_of; simpl. apply dom_insert_L.
  - unfold bind. rewrite add_runs, subtract_runs. apply getattr_setattr.
  - unfold bind. rewrite subtract_runs, add_runs. apply getattr_setattr.
  - unfold bind. rewrite add_runs, subtract_runs. apply getattr_setattr.
Qed.


(** C7: none of [greet], [add], [subtract] and [multiply] can fail: on every
    string, on all integers and in every state the call returns a value, and
    it never raises. *)
Theorem no_error_conditions (c : call) (st : pystate) :
  (exists (v : value) (st' : pystate), run_call c st = (Returns v, st'))
  /\ (forall (e : exn) (st' : pystate), run_call c st <> (Raises e, st')).
Proof.
  destruct c as [name|self a b|self a b|a b]; simpl;
    unfold bind; rewrite ?add_runs, ?subtract_runs;
    (split; [eexists _, _; reflexivity | intros e st' H; discriminate H]).
Qed.

(** C10: the integers are unbounded and the arithmetic is exact: [add]
    stores [a + b], [subtract] stores [a - b] and [multiply] returns
    [a * b] in [Z]; at every width [w], the sum [(2^w - 1) + 1] and the
    product [2^w * 2^w] come out as [2^w] and [2^w * 2^w], where a [w]-bit
    register would keep [0]. *)
Theorem arithmetic_is_exact (self : loc) (a b : Z) (st : pystate) (w : nat) :
  result_of ((let* c := Calculator.add self a b in Calculator.result c) st)
  = Returns (a + b)
  /\ result_of ((let* c := Calculator.subtract self a b in Calculator.result c) st)
     = Returns (a - b)
  /\ multiply a b = a * b
  /\ result_of ((let* c := Calculator.add self (2 ^ Z.of_nat w - 1) 1 in
                 Calculator.result c) st)
     = Returns (2 ^ Z.of_nat w)
  /\ wrap w ((2 ^ Z.of_nat w - 1) + 1) = 0
  /\ wrap w (2 ^ Z.of_nat w * 2 ^ Z.of_nat w) = 0
  /\ 0 < 2 ^ Z.of_nat w
  /\ 0 < multiply (2 ^ Z.of_nat w) (2 ^ Z.of_nat w).
Proof.
  assert (Hpos : 0 < 2 ^ Z.of_nat w) by (apply Z.pow_pos_nonneg; lia).
  repeat split.
  - unfold bind. rewrite add_runs. apply getattr_setattr.
  - unfold bind. rewrite subtract_runs. apply getattr_setattr.
  - unfold bind. rewrite add_runs.
    replace (2 ^ Z.of_nat w) with (2 ^ Z.of_nat w - 1 + 1) at 2 by lia.
    apply getattr_setattr.
  - unfold wrap. replace (2 ^ Z.of_nat w - 1 + 1) with (2 ^ Z.of_nat w) by lia.
    apply Z.mod_same. lia.
  - unfold wrap. apply Z.mod_mul. lia.
  - exact Hpos.
  - unfold multiply. nia.
Qed.

(** ** Scopes and failures of the fetch *)

Section Fetch.

Context {E W : Type} {A : Aiohttp E W}.






End Fetch.

(** ** Runs of the scripted client *)

Example fetch_success :
  fetch_data (client := scripted_client no_failure false) "http://host/data" start
  = (Returns status_200,
     mkFState [StImport; StSession; StSessionEnter; StGet; StRequestEnter;
               StJson; StRequestExit; StSessionExit]
              [Acquired RSession; Acquired RResponse;
               Released RResponse; Released RSession]).
Proof. vm_compute. reflexivity. Qed.

Example fetch_malformed_body :
  fetch_data (client := scripted_client malformed_body false) "http://host/data" start
  = (Raises ContentTypeError,
     mkFState [StImport; StSession; StSessionEnter; StGet; StRequestEnter;
               StJson; StRequestExit; StSessionExit]
              [Acquired RSession; Acquired RResponse;
               Released RResponse; Released RSession]).
Proof. vm_compute. reflexivity. Qed.

Example fetch_unreachable_host :
  fetch_data (client := scripted_client unreachable_host false) "http://host/data" start
  = (Raises ClientConnectorError,
     mkFState [StImport; StSession; StSessionEnter; StGet; StRequestEnter;
               StSessionExit]
              [Acquired RSession; Released RSession]).
Proof. vm_compute. reflexivity. Qed.

(** The assumption of [fetch_propagates_failures] is needed: exit hooks that
    answer with a truthy value make the [async with] statement swallow the
    exception, and the function falls off its end. *)
Example swallowing_exit_hides_failure :
  result_of (fetch_data (client := scripted_client malformed_body true)
               "http://host/data" start)
  = Returns PyNone.
Proof. vm_compute. reflexivity. Qed.



(** * Further properties *)

From Stdlib Require Import Ascii.

(** ** Strings *)

Lemma append_cons (a : Ascii.ascii) (s t : string) :
  String a s +:+ t = String a (s +:+ t).
Proof. reflexivity. Qed.

Lemma append_assoc (s t u : string) : (s +:+ t) +:+ u = s +:+ (t +:+ u).
Proof.
  induction s as [|a s IH]; [reflexivity|].
  rewrite !append_cons, IH. reflexivity.
Qed.

Lemma length_append (s t : string) :
  String.length (s +:+ t) = (String.length s + String.length t)%nat.
Proof.
  induction s as [|a s IH]; [reflexivity|].
  rewrite append_cons. simpl. rewrite IH. reflexivity.
Qed.

Lemma append_char_inj (c : Ascii.ascii) (s1 s2 : string) :
  s1 +:+ String c "" = s2 +:+ String c "" -> s1 = s2.
Proof.
  revert s2; induction s1 as [|a s1 IH]; intros [|b s2] H.
  - reflexivity.
  - rewrite append_cons in H. change ("" +:+ String c "") with (String c "") in H.
    injection H as _ H. destruct s2; discriminate H.
  - rewrite append_cons in H. change ("" +:+ String c "") with (String c "") in H.
    injection H as _ H. destruct s1; discriminate H.
  - rewrite !append_cons in H. injection H as -> H.
    f_equal. apply IH, H.
Qed.

(** ** The greeting *)

(** X1: [greet] loses nothing of the name: two names with the same greeting
    are the same name. *)
Theorem greet_injective (n1 n2 : string) :
  greet n1 = greet n2 -> n1 = n2.
Proof.
  unfold greet. intros H.
  apply (inj (String.append "Hello, ")) in H.
  apply (append_char_inj "!"%char), H.
Qed.

Lemma greet_injective_witness :
  greet "World" = greet "World" /\ "World" = "World".
Proof.
  split; [reflexivity|].
  apply (greet_injective "World" "World"). reflexivity.
Defined.

(** X2: the greeting is the name's length plus eight characters long, it
    starts with ["Hello, "] and the name sits at offset 7; for the empty
    name it is ["Hello, !"]. *)
Theorem greet_shape (name : string) :
  String.length (greet name) = (String.length name + 8)%nat
  /\ String.prefix "Hello, " (greet name) = true
  /\ String.substring 7 (String.length name) (greet name) = name
  /\ String.get (7 + String.length name) (greet name) = Some "!"%char
  /\ greet "" = "Hello, !".
Proof.
  unfold greet. repeat split.
  - rewrite !length_append. simpl. lia.
  - induction name as [|a s IH]; reflexivity.
  - change (String.substring 7 (String.length name) ("Hello, " +:+ name +:+ "!"))
      with (String.substring 0 (String.length name) (name +:+ "!")).
    induction name as [|a s IH]; [reflexivity|].
    rewrite append_cons. simpl. rewrite IH. reflexivity.
  - change (String.get (7 + String.length name) ("Hello, " +:+ name +:+ "!"))
      with (String.get (String.length name) (name +:+ "!")).
    induction name as [|a s IH]; [reflexivity|].
    rewrite append_cons. simpl. exact IH.
Qed.

(** ** The holder and the rest of the heap *)

(** X3: a mutating call touches the [result] attribute of its own holder and
    nothing else: every other object, every other attribute of the holder,
    the standard output and the call log are as before. *)
Theorem mutators_frame (self other : loc) (o : calc_op) (attr : string)
    (st : pystate) :
  other <> self -> attr <> "result" ->
  heap (state_of (apply_op self o st)) !! other = heap st !! other
  /\ (heap (state_of (apply_op self o st)) !! self ≫= (fun attrs => attrs !! attr))
     = (heap st !! self ≫= (fun attrs => attrs !! attr))
  /\ stdout (state_of (apply_op self o st)) = stdout st
  /\ calls (state_of (apply_op self o st)) = calls st.
Proof.
  intros Hother Hattr. rewrite apply_op_runs.
  unfold setattr, state_of; simpl. repeat split.
  - apply lookup_insert_ne. congruence.
  - rewrite lookup_insert_eq; simpl.
    rewrite lookup_insert_ne by congruence.
    destruct (heap st !! self); reflexivity.
Qed.

Lemma mutators_frame_witness :
  (2%positive <> 1%positive) /\ ("total" <> "result")
  /\ heap (state_of (apply_op 1%positive (OpAdd 5 3) empty_state)) !! 2%positive
     = heap empty_state !! 2%positive.
Proof.
  assert (H1 : 2%positive <> 1%positive) by discriminate.
  assert (H2 : "total" <> "result") by discriminate.
  split; [exact H1|]. split; [exact H2|].
  apply (mutators_frame 1%positive 2%positive (OpAdd 5 3) "total" empty_state H1 H2).
Defined.

(** X4: two calculators are two objects: the second [Calculator()] returns a
    reference different from the first, and an operation on either leaves
    the other's [result] alone. *)
Theorem two_holders_independent (a b c d : Z) (st : pystate) :
  exists (c1 c2 : loc) (st' : pystate),
    (let* x := Calculator.new in
     let* y := Calculator.new in
     let* _ := Calculator.add x a b in
     let* _ := Calculator.subtract y c d in
     ret (x, y)) st = (Returns (c1, c2), st')
    /\ c1 <> c2
    /\ result_of (Calculator.result c1 st') = Returns (a + b)
    /\ result_of (Calculator.result c2 st') = Returns (c - d).
Proof.
  unfold bind. rewrite new_runs.
  set (st1 := state_of (setattr _ "result" 0 (state_of (new_object st)))).
  rewrite new_runs, add_runs, subtract_runs.
  set (c1 := fresh (dom (heap st))).
  set (c2 := fresh (dom (heap st1))).
  assert (Hne : c1 <> c2).
  { intros Heq.
    apply (is_fresh (dom (heap st1))). fold c2. rewrite <- Heq.
    unfold st1, setattr, new_object, state_of; simpl. fold c1.
    rewrite dom_insert_L. set_solver. }
  eexists c1, c2, _. split; [reflexivity|]. split; [exact Hne|]. split.
  - unfold Calculator.result, getattr, setattr, state_of, result_of; simpl.
    rewrite lookup_insert_ne by congruence.
    rewrite lookup_insert_eq; simpl. rewrite lookup_insert_eq. reflexivity.
  - apply getattr_setattr.
Qed.

(** X5: the holder keeps no history: the whole state after [op1] then [op2]
    on a holder is the state after [op2] alone, so an operation repeated is
    the operation done once. *)
Theorem last_operation_decides_state (self : loc) (o1 o2 : calc_op)
    (st : pystate) :
  state_of ((let* _ := apply_op self o1 in apply_op self o2) st)
  = state_of (apply_op self o2 st).
Proof.
  unfold bind. rewrite !apply_op_runs.
  unfold setattr, state_of, with_heap; simpl.
  rewrite lookup_insert_eq; simpl.
  rewrite !insert_insert_eq. reflexivity.
Qed.

(** ** The script *)

(** X7: run as a script from any state, the file does not raise; it creates
    one object, at a reference not used before, whose [result] ends as [8];
    it appends the greeting line and the line [8] to whatever was printed
    before; and it makes its three calls in order. *)
Theorem main_from_any_state (st : pystate) :
  run_module "__main__" st
  = (Returns tt,
     mkState (<[fresh (dom (heap st)) := {[ "result" := 8 ]}]> (heap st))
             (stdout st +:+ "Hello, World!" +:+ newline +:+ "8" +:+ newline)
             (calls st ++ [SCalculator; Sgreet; SCalculator]))
  /\ fresh (dom (heap st)) ∉ dom (heap st).
Proof.
  split; [|apply is_fresh].
  unfold run_module. destruct (decide ("__main__" = "__main__")) as [_|H];
    [|contradiction].
  unfold main, invoke, bind. rewrite new_runs. simpl.
  unfold print, ret, bind. simpl.
  unfold Calculator.result, getattr, setattr, new_object, state_of, with_heap.
  simpl.
  rewrite !lookup_insert_eq. simpl.
  rewrite !lookup_insert_eq. simpl.
  rewrite !insert_insert_eq.
  rewrite <- !(assoc_L (++)). simpl.
  rewrite !append_assoc.
  reflexivity.
Qed.

(** ** The product *)

(** X8: over unbounded integers a product is zero only when a factor is;
    the order and the grouping of the factors do not matter. *)
Theorem multiply_algebra (a b c : Z) :
  (multiply a b = 0 <-> a = 0 \/ b = 0)
  /\ multiply a b = multiply b a
  /\ multiply a (multiply b c) = multiply (multiply a b) c.
Proof.
  unfold multiply. split; [|split].
  - split; [apply Z.mul_eq_0 | intros [-> | ->]; lia].
  - apply Z.mul_comm.
  - apply Z.mul_assoc.
Qed.

(** ** Paths through the fetch *)

Section FetchPaths.

Context {E W : Type} {A : Aiohttp E W}.

(** Unfolds a run of [fetch_data] down to the client's operations. *)
Ltac unfold_fetch :=
  unfold fetch_data, fetch_data_body, open_scopes, prelude, async_with, bind,
    lift, emit, ret, raise, result_of, state_of in *;
  simpl in *.

(** X9: a failure of the import, of the session's construction or of its
    [__aenter__] is raised as it is, with no scope entered and no exit hook
    run: the world is left where the failing operation left it. *)
Theorem failure_before_scope (url : string) (st : fstate W) (e : E) (w' : W) :
  prelude (world st) = (Raises e, w') ->
  fetch_data url st = (Raises e, mkFState w' (trace st)).
Proof.
  unfold_fetch.
  destruct (import_aiohttp (world st)) as [[[]|e0] w0]; simpl;
    [|intros [= -> ->]; reflexivity].
  destruct (ClientSession w0) as [[m|e0] w1]; simpl;
    [|intros [= -> ->]; reflexivity].
  destruct (session_aenter m w1) as [[s|e0] w2]; simpl;
    [intros [=] | intros [= -> ->]; reflexivity].
Qed.

(** X10: when nothing fails, [fetch_data] returns the body [response.json()]
    gave; it has asked the entered session for [url], parsed the entered
    response, then run the request's exit hook and after it the session's,
    each told that no exception is in flight, and whatever the hooks answer
    is ignored. *)
Theorem success_path (url : string) (st : fstate W)
    (m : session_t) (rq : request_t) (resp : response_t) (body : pyvalue)
    (b1 b2 : bool) (w5 w6 w7 w8 : W) :
  open_scopes url (world st) = (Returns (m, rq, resp), w5) ->
  response_json resp w5 = (Returns body, w6) ->
  request_aexit rq None w6 = (Returns b1, w7) ->
  session_aexit m None w7 = (Returns b2, w8) ->
  fetch_data url st
  = (Returns body,
     mkFState w8 (trace st ++ [Acquired RSession; Acquired RResponse;
                               Released RResponse; Released RSession])).
Proof.
  unfold_fetch.
  destruct (import_aiohttp (world st)) as [[[]|e0] w0]; simpl; [|intros [=]].
  destruct (ClientSession w0) as [[m0|e0] w1]; simpl; [|intros [=]].
  destruct (session_aenter m0 w1) as [[s|e0] w2]; simpl; [|intros [=]].
  destruct (session_get s url w2) as [[rq0|e0] w3]; simpl; [|intros [=]].
  destruct (request_aenter rq0 w3) as [[resp0|e0] w4]; simpl; [|intros [=]].
  intros [= -> -> -> ->] Hjson Hrq Hs.
  rewrite Hjson; simpl. rewrite Hrq; simpl. rewrite Hs; simpl.
  rewrite <- !(assoc_L (++)). reflexivity.
Qed.

(** X11: an exception raised by the request's exit hook while the block's
    own exception is in flight takes its place: the session's exit hook is
    told the hook's exception, and that one is what [fetch_data] raises. *)
Theorem exit_failure_replaces (url : string) (st : fstate W)
    (m : session_t) (rq : request_t) (resp : response_t) (e e' : E)
    (w5 w6 w7 w8 : W) :
  open_scopes url (world st) = (Returns (m, rq, resp), w5) ->
  response_json resp w5 = (Raises e, w6) ->
  request_aexit rq (Some e) w6 = (Raises e', w7) ->
  session_aexit m (Some e') w7 = (Returns false, w8) ->
  fetch_data url st
  = (Raises e',
     mkFState w8 (trace st ++ [Acquired RSession; Acquired RResponse;
                               Released RResponse; Released RSession])).
Proof.
  unfold_fetch.
  destruct (import_aiohttp (world st)) as [[[]|e0] w0]; simpl; [|intros [=]].
  destruct (ClientSession w0) as [[m0|e0] w1]; simpl; [|intros [=]].
  destruct (session_aenter m0 w1) as [[s|e0] w2]; simpl; [|intros [=]].
  destruct (session_get s url w2) as [[rq0|e0] w3]; simpl; [|intros [=]].
  destruct (request_aenter rq0 w3) as [[resp0|e0] w4]; simpl; [|intros [=]].
  intros [= -> -> -> ->] Hjson Hrq Hs.
  rewrite Hjson; simpl. rewrite Hrq; simpl. rewrite Hs; simpl.
  rewrite <- !(assoc_L (++)). reflexivity.
Qed.

(** X12: a request exit hook that answers with a truthy value swallows the
    failure of [response.json()]: the session's exit hook is told that no
    exception is in flight, and [fetch_data] falls off its end and returns
    [None]. *)
Theorem swallowed_failure_returns_none (url : string) (st : fstate W)
    (m : session_t) (rq : request_t) (resp : response_t) (e : E) (b : bool)
    (w5 w6 w7 w8 : W) :
  open_scopes url (world st) = (Returns (m, rq, resp), w5) ->
  response_json resp w5 = (Raises e, w6) ->
  request_aexit rq (Some e) w6 = (Returns true, w7) ->
  session_aexit m None w7 = (Returns b, w8) ->
  fetch_data url st
  = (Returns PyNone,
     mkFState w8 (trace st ++ [Acquired RSession; Acquired RResponse;
                               Released RResponse; Released RSession])).
Proof.
  unfold_fetch.
  destruct (import_aiohttp (world st)) as [[[]|e0] w0]; simpl; [|intros [=]].
  destruct (ClientSession w0) as [[m0|e0] w1]; simpl; [|intros [=]].
  destruct (session_aenter m0 w1) as [[s|e0] w2]; simpl; [|intros [=]].
  destruct (session_get s url w2) as [[rq0|e0] w3]; simpl; [|intros [=]].
  destruct (request_aenter rq0 w3) as [[resp0|e0] w4]; simpl; [|intros [=]].
  intros [= -> -> -> ->] Hjson Hrq Hs.
  rewrite Hjson; simpl. rewrite Hrq; simpl. rewrite Hs; simpl.
  rewrite <- !(assoc_L (++)). reflexivity.
Qed.

(** X14: a failure of [session.get(url)] or of the request's [__aenter__]
    happens inside the session's scope and outside the response's: the
    session's exit hook is told the exception, the request's exit hook is
    not run, and when the session's hook answers with a falsy value the
    exception is raised as it is. *)
Theorem failure_inside_session (url : string) (st : fstate W)
    (m s : session_t) (e : E) (w3 w4 w5 : W) :
  prelude (world st) = (Returns (m, s), w3) ->
  (let* rq := session_get s url in request_aenter rq) w3 = (Raises e, w4) ->
  session_aexit m (Some e) w4 = (Returns false, w5) ->
  fetch_data url st
  = (Raises e, mkFState w5 (trace st ++ [Acquired RSession; Released RSession])).
Proof.
  unfold_fetch.
  destruct (import_aiohttp (world st)) as [[[]|e0] w0]; simpl; [|intros [=]].
  destruct (ClientSession w0) as [[m0|e0] w1]; simpl; [|intros [=]].
  destruct (session_aenter m0 w1) as [[s0|e0] w2]; simpl; [|intros [=]].
  intros [= -> -> ->].
  destruct (session_get s url w3) as [[rq|e0] w3']; simpl.
  - destruct (request_aenter rq w3') as [[resp|e0] w4']; simpl; [intros [=]|].
    intros [= -> ->] Hs. rewrite Hs; simpl.
    rewrite <- !(assoc_L (++)). reflexivity.
  - intros [= -> ->] Hs. rewrite Hs; simpl.
    rewrite <- !(assoc_L (++)). reflexivity.
Qed.

End FetchPaths.

(** ** The order of the client's operations *)

(** X15: whatever fails and whatever the exit hooks answer, [fetch_data]
    reaches the client in the order it is written: the import first, and
    then a selection of the later operations in program order, so no
    operation runs twice: one session, one request, one parse. *)
Theorem steps_in_program_order (script : step -> option net_error)
    (swallow : bool) (url : string) :
  subsequence
    (world (state_of (fetch_data (client := scripted_client script swallow)
                        url start)))
    program_order = true
  /\ head (world (state_of (fetch_data (client := scripted_client script swallow)
                              url start)))
     = Some StImport.
Proof.
  unfold fetch_data, fetch_data_body, async_with, bind, lift, emit, ret,
    raise, state_of.
  simpl. unfold scripted_op.
  repeat match goal with
         | |- context [ script ?s ] => destruct (script s); simpl
         end;
    destruct swallow; split; reflexivity.
Qed.

(** ** Instances on the scripted client *)

Lemma failure_before_scope_witness :
  prelude (client := scripted_client
             (failing StSession ClientConnectorError no_failure) false)
    (world start)
  = (Raises ClientConnectorError, [StImport; StSession])
  /\ fetch_data (client := scripted_client
                   (failing StSession ClientConnectorError no_failure) false)
       "http://host/data" start
     = (Raises ClientConnectorError, mkFState [StImport; StSession] (trace start)).
Proof.
  split; [reflexivity|].
  apply (failure_before_scope
           (A := scripted_client
                   (failing StSession ClientConnectorError no_failure) false)
           "http://host/data" start ClientConnectorError [StImport; StSession]).
  reflexivity.
Defined.

Lemma success_path_witness :
  fetch_data (client := scripted_client no_failure false) "http://host/data" start
  = (Returns status_200,
     mkFState
       [StImport; StSession; StSessionEnter; StGet; StRequestEnter; StJson;
        StRequestExit; StSessionExit]
       (trace start ++ [Acquired RSession; Acquired RResponse;
                        Released RResponse; Released RSession])).
Proof.
  apply (success_path (A := scripted_client no_failure false)
           "http://host/data" start tt "http://host/data" "http://host/data"
           status_200 false false
           [StImport; StSession; StSessionEnter; StGet; StRequestEnter]
           [StImport; StSession; StSessionEnter; StGet; StRequestEnter; StJson]
           [StImport; StSession; StSessionEnter; StGet; StRequestEnter; StJson;
            StRequestExit]);
    reflexivity.
Defined.

Lemma exit_failure_replaces_witness :
  fetch_data (client := scripted_client
                (failing StRequestExit CancelledError malformed_body) false)
    "http://host/data" start
  = (Raises CancelledError,
     mkFState
       [StImport; StSession; StSessionEnter; StGet; StRequestEnter; StJson;
        StRequestExit; StSessionExit]
       (trace start ++ [Acquired RSession; Acquired RResponse;
                        Released RResponse; Released RSession])).
Proof.
  apply (exit_failure_replaces
           (A := scripted_client
                   (failing StRequestExit CancelledError malformed_body) false)
           "http://host/data" start tt "http://host/data" "http://host/data"
           ContentTypeError CancelledError
           [StImport; StSession; StSessionEnter; StGet; StRequestEnter]
           [StImport; StSession; StSessionEnter; StGet; StRequestEnter; StJson]
           [StImport; StSession; StSessionEnter; StGet; StRequestEnter; StJson;
            StRequestExit]);
    reflexivity.
Defined.

Lemma swallowed_failure_returns_none_witness :
  fetch_data (client := scripted_client malformed_body true)
    "http://host/data" start
  = (Returns PyNone,
     mkFState
       [StImport; StSession; StSessionEnter; StGet; StRequestEnter; StJson;
        StRequestExit; StSessionExit]
       (trace start ++ [Acquired RSession; Acquired RResponse;
                        Released RResponse; Released RSession])).
Proof.
  apply (swallowed_failure_returns_none
           (A := scripted_client malformed_body true)
           "http://host/data" start tt "http://host/data" "http://host/data"
           ContentTypeError true
           [StImport; StSession; StSessionEnter; StGet; StRequestEnter]
           [StImport; StSession; StSessionEnter; StGet; StRequestEnter; StJson]
           [StImport; StSession; StSessionEnter; StGet; StRequestEnter; StJson;
            StRequestExit]);
    reflexivity.
Defined.

Lemma failure_inside_session_witness :
  fetch_data (client := scripted_client unreachable_host false)
    "http://host/data" start
  = (Raises ClientConnectorError,
     mkFState
       [StImport; StSession; StSessionEnter; StGet; StRequestEnter; StSessionExit]
       (trace start ++ [Acquired RSession; Released RSession])).
Proof.
  apply (failure_inside_session (A := scripted_client unreachable_host false)
           "http://host/data" start tt tt ClientConnectorError
           [StImport; StSession; StSessionEnter]
           [StImport; StSession; StSessionEnter; StGet; StRequestEnter]);
    reflexivity.
Defined.
